(** * Catkuro: the calorie calculator of [catv1.py]

    A shallow embedding of [src/catv1.py].  Python floats are modelled as
    real numbers (exact arithmetic), Python ints as [Z].  The Streamlit
    session state is a record of optional entries (an absent key is
    [None]); every button handler of [main] is a function from the session
    state to an [outcome]: either a rejection with the message kind shown
    to the user (the session state is then left as it was) or the updated
    session state together with what the handler displays. *)

From Stdlib Require Import Reals ZArith Lra Lia List Strings.String.
From Stdlib Require Import Init.Byte.
Import ListNotations.

Open Scope R_scope.

(** ** Energy model *)

Module Energy.

(** [calculate_rer weight_kg]: [None] when [weight_kg <= 0] (after an
    [st.error]), otherwise [70 * (float(weight_kg) ** 0.75)]. *)
Definition calculate_rer (weight_kg : R) : option R :=
  if Rle_dec weight_kg 0 then None
  else Some (70 * Rpower weight_kg 0.75).

(** [get_activity_multiplier], line by line: [multiplier] is the local
    variable of the Python function. *)
Definition get_activity_multiplier (age_months : Z) (is_neutered : bool)
    (bcs : Z) (is_pregnant is_lactating : bool) : R :=
  if is_pregnant then 2.0 else
  if is_lactating then 3.0 else
  if (age_months <? 4)%Z then 3.0
  else if ((age_months >=? 4)%Z && (age_months <=? 12)%Z)%bool then 2.0
  else if ((age_months >? 12)%Z && (age_months <? 84)%Z)%bool then
    (if is_neutered then
       (if (bcs >? 5)%Z then 0.8
        else if (bcs <? 4)%Z then 1.6
        else 1.2)
     else
       (if (bcs >? 5)%Z then 1.0
        else if (bcs <? 4)%Z then 1.8
        else 1.4))
  else
    (if (bcs >? 5)%Z then 0.8
     else if (bcs <? 4)%Z then 1.2
     else 1.0).

(** The spec's decision table for the activity multiplier, written from
    the spec's words (precedence: pregnant, lactating, then age brackets
    with the body condition score adjustment); compared with
    [get_activity_multiplier] below. *)
Inductive life_stage := Kitten | Adolescent | Adult | Senior.

Definition life_stage_of (age_months : Z) : life_stage :=
  if (age_months <? 4)%Z then Kitten
  else if (age_months <=? 12)%Z then Adolescent
  else if (age_months <=? 83)%Z then Adult
  else Senior.

(** Base value of an age bracket (the value for a neutral score 4 or 5). *)
Definition base_multiplier (st : life_stage) (is_neutered : bool) : R :=
  match st with
  | Kitten => 3.0
  | Adolescent => 2.0
  | Adult => if is_neutered then 1.2 else 1.4
  | Senior => 1.0
  end.

Definition activity_multiplier_table (age_months : Z) (is_neutered : bool)
    (bcs : Z) (is_pregnant is_lactating : bool) : R :=
  if is_pregnant then 2.0 else
  if is_lactating then 3.0 else
  let st := life_stage_of age_months in
  match st with
  | Kitten | Adolescent => base_multiplier st is_neutered
  | Adult =>
      if (5 <? bcs)%Z then (if is_neutered then 0.8 else 1.0)
      else if (bcs <? 4)%Z then (if is_neutered then 1.6 else 1.8)
      else base_multiplier st is_neutered
  | Senior =>
      if (5 <? bcs)%Z then 0.8
      else if (bcs <? 4)%Z then 1.2
      else base_multiplier st is_neutered
  end.

End Energy.

(** ** Session state and the button handlers of [main] *)

Module Session.
Import Energy.

(** [st.session_state.cat_info]; [is_neutered] is stored by the source as
    the string "yes"/"no" of the radio button, here as the boolean. *)
Record cat_info := {
  ci_weight : R; ci_age_years : Z; ci_age_months : Z;
  ci_is_neutered : bool; ci_bcs : Z }.

(** [st.session_state.der_info]. *)
Record der_info := {
  rer : R; multiplier : R; der : R; water_intake : R }.

(** [st.session_state.intake_analysis]. *)
Record intake_analysis := {
  ia_dry_food_grams : R; ia_dry_food_kcal : R;
  ia_wet_food_grams : R; ia_wet_food_kcal : R;
  total_intake : R; calorie_difference : R }.

(** [st.session_state.feeding_plan]. *)
Record feeding_plan := {
  wet_food_percentage : Z; required_dry_grams : R; required_wet_grams : R }.

(** The keys of [st.session_state] used by [main]; [None] is an absent key. *)
Record session := {
  ss_der : option R;
  ss_cat_info : option cat_info;
  ss_der_info : option der_info;
  ss_intake_analysis : option intake_analysis;
  ss_feeding_plan : option feeding_plan }.

Definition empty_session : session :=
  {| ss_der := None; ss_cat_info := None; ss_der_info := None;
     ss_intake_analysis := None; ss_feeding_plan := None |}.

(** The kinds of message a handler stops with. *)
Inductive error_kind :=
  | InvalidInput        (* age <= 0, or weight <= 0 in [calculate_rer] *)
  | PreconditionError   (* no DER in the session yet *)
  | MissingFoodInfo     (* tab 3: both caloric densities are 0 *)
  | AssetMissing.       (* tab 4: font.ttf not found *)

(** A handler either stops with a message, leaving the session as it was,
    or stores its results and shows something. *)
Inductive outcome (A : Type) :=
  | Rejected (e : error_kind)
  | Updated (s : session) (shown : A).
Arguments Rejected {A} e.
Arguments Updated {A} s shown.

Definition next_session {A} (s : session) (o : outcome A) : session :=
  match o with
  | Rejected _ => s
  | Updated s' _ => s'
  end.

(** The widgets of tab 1. *)
Record profile_input := {
  weight : R; age_years : Z; age_months_part : Z;
  is_neutered : bool; bcs : Z; is_pregnant : bool; is_lactating : bool }.

(** Tab 1, button [calc_der]. *)
Definition calc_der (inp : profile_input) (s : session) : outcome der_info :=
  let age := (age_years inp * 12 + age_months_part inp)%Z in
  if (age <=? 0)%Z then Rejected InvalidInput
  else
    match calculate_rer (weight inp) with
    | None => Rejected InvalidInput
    | Some rer =>
        let multiplier := get_activity_multiplier age (is_neutered inp)
                            (bcs inp) (is_pregnant inp) (is_lactating inp) in
        let der := rer * multiplier in
        let di := {| rer := rer; multiplier := multiplier; der := der;
                     water_intake := der |} in
        let ci := {| ci_weight := weight inp; ci_age_years := age_years inp;
                     ci_age_months := age_months_part inp;
                     ci_is_neutered := is_neutered inp; ci_bcs := bcs inp |} in
        (* the two [del] statements of lines 196-197 *)
        Updated {| ss_der := Some der; ss_cat_info := Some ci;
                   ss_der_info := Some di; ss_intake_analysis := None;
                   ss_feeding_plan := None |} di
    end.

(** The widgets of tab 2 (also read by tab 3). *)
Record food_input := {
  dry_food_grams : R; dry_food_kcal_per_1000g : R;
  wet_food_grams : R; wet_food_kcal_per_100g : R }.

(** The verdict shown after the intake analysis (lines 264-272). *)
Inductive intake_verdict := OverTarget | UnderTarget | OnTarget.

Definition intake_verdict_of (calorie_difference : R) : intake_verdict :=
  if Rlt_dec 5 calorie_difference then OverTarget
  else if Rlt_dec calorie_difference (-5) then UnderTarget
  else OnTarget.

(** The float literals [1000.0] and [100.0] of the handlers below are the
    reals [1000] and [100]. *)

(** Tab 2, button [analyze_intake]; [st.stop()] ends the run when there
    is no DER. *)
Definition analyze_intake (food : food_input) (s : session)
    : outcome (intake_analysis * intake_verdict) :=
  match ss_der s with
  | None => Rejected PreconditionError
  | Some der =>
      let dry_food_calories := (dry_food_grams food / 1000)
                               * dry_food_kcal_per_1000g food in
      let wet_food_calories := (wet_food_grams food / 100)
                               * wet_food_kcal_per_100g food in
      let total_intake := dry_food_calories + wet_food_calories in
      let calorie_difference := total_intake - der in
      let ia := {| ia_dry_food_grams := dry_food_grams food;
                   ia_dry_food_kcal := dry_food_calories;
                   ia_wet_food_grams := wet_food_grams food;
                   ia_wet_food_kcal := wet_food_calories;
                   total_intake := total_intake;
                   calorie_difference := calorie_difference |} in
      Updated {| ss_der := ss_der s; ss_cat_info := ss_cat_info s;
                 ss_der_info := ss_der_info s; ss_intake_analysis := Some ia;
                 ss_feeding_plan := ss_feeding_plan s |}
              (ia, intake_verdict_of calorie_difference)
  end.

(** Python's [==] on floats. *)
Definition float_eqb (x y : R) : bool :=
  if Req_EM_T x y then true else false.

(** Lines 294-300: the arithmetic of the feeding plan. *)
Definition plan_amounts (der : R) (wet_food_percentage : Z)
    (dry_food_kcal_per_1000g wet_food_kcal_per_100g : R) : feeding_plan :=
  let target_wet_calories := der * (IZR wet_food_percentage / 100) in
  let target_dry_calories := der * (IZR (100 - wet_food_percentage) / 100) in
  let required_dry_grams :=
    if Rlt_dec 0 dry_food_kcal_per_1000g
    then (target_dry_calories / dry_food_kcal_per_1000g) * 1000 else 0 in
  let required_wet_grams :=
    if Rlt_dec 0 wet_food_kcal_per_100g
    then (target_wet_calories / wet_food_kcal_per_100g) * 100 else 0 in
  {| wet_food_percentage := wet_food_percentage;
     required_dry_grams := required_dry_grams;
     required_wet_grams := required_wet_grams |}.

(** Tab 3: the two warnings of lines 280-284, then button [generate_plan]
    with the slider value [wet_food_percentage]. *)
Definition generate_plan (food : food_input) (wet_food_percentage : Z)
    (s : session) : outcome feeding_plan :=
  match ss_der s with
  | None => Rejected PreconditionError
  | Some der =>
      if (float_eqb (dry_food_kcal_per_1000g food) 0
          && float_eqb (wet_food_kcal_per_100g food) 0)%bool
      then Rejected MissingFoodInfo
      else
        let fp := plan_amounts der wet_food_percentage
                    (dry_food_kcal_per_1000g food) (wet_food_kcal_per_100g food) in
        Updated {| ss_der := ss_der s; ss_cat_info := ss_cat_info s;
                   ss_der_info := ss_der_info s;
                   ss_intake_analysis := ss_intake_analysis s;
                   ss_feeding_plan := Some fp |} fp
  end.

End Session.

(** ** The report image (tab 4) *)

Module Report.
Import Session.

(** The texts drawn on the report, with the values they format. *)
Inductive header := CatHeader | DerHeader | IntakeHeader | PlanHeader.

Inductive report_text :=
  | TitleText
  | HeaderText (h : header)
  | WeightText (w : R)
  | AgeText (years months : Z)
  | BcsText (b : Z)
  | NeuteredText (n : option bool)   (* [None]: the default "unknown" *)
  | DerText (d : R)
  | WaterText (w : R)
  | TotalIntakeText (t : R)
  | DiffText (d : R)
  | RatioText (dry_percent wet_percent : Z)
  | DryGramsText (g : R)
  | WetGramsText (g : R)
  | TimestampText (t : string)
  | FooterText.

(** [draw.text((x, y), ...)]. *)
Record draw_op := DrawText { op_x : Z; op_y : Z; op_text : report_text }.

Definition width : Z := 800.
Definition height : Z := 800.

(** The blocks drawn at a running [y_pos]: each returns its operations and
    the [y_pos] after it. *)
Definition intake_block (ia : intake_analysis) (y_pos : Z) : list draw_op * Z :=
  let y1 := (y_pos + 80)%Z in
  let y2 := (y1 + 50)%Z in
  let y3 := (y2 + 40)%Z in
  ([DrawText 50 y1 (HeaderText IntakeHeader);
    DrawText 80 y2 (TotalIntakeText (total_intake ia));
    DrawText 80 y3 (DiffText (calorie_difference ia))], y3).

Definition plan_block (fp : feeding_plan) (y_pos : Z) : list draw_op * Z :=
  let y1 := (y_pos + 80)%Z in
  let y2 := (y1 + 40)%Z in
  let y3 := (y2 + 30)%Z in
  let y4 := (y3 + 40)%Z in
  ([DrawText 50 y1 (HeaderText PlanHeader);
    DrawText 80 y2 (RatioText (100 - wet_food_percentage fp) (wet_food_percentage fp));
    DrawText 80 y3 (DryGramsText (required_dry_grams fp));
    DrawText 80 y4 (WetGramsText (required_wet_grams fp))], y4).

(** The drawing of [generate_diet_report_image], lines 79-123; the [.get]
    defaults of the source are used for an absent dictionary. *)
Definition report_layout (timestamp : string) (cat : option cat_info)
    (di : option der_info) (intake : option intake_analysis)
    (plan : option feeding_plan) : list draw_op :=
  let weight := match cat with Some c => ci_weight c | None => 0 end in
  let years := match cat with Some c => ci_age_years c | None => 0%Z end in
  let months := match cat with Some c => ci_age_months c | None => 0%Z end in
  let bcs := match cat with Some c => ci_bcs c | None => 0%Z end in
  let neutered := match cat with Some c => Some (ci_is_neutered c) | None => None end in
  let d := match di with Some x => der x | None => 0 end in
  let water := match di with Some x => water_intake x | None => 0 end in
  let y0 := 120%Z in
  let y1 := (y0 + 50)%Z in
  let y2 := (y1 + 40)%Z in
  let y3 := (y2 + 80)%Z in
  let y4 := (y3 + 50)%Z in
  let y5 := (y4 + 40)%Z in
  let head :=
    [DrawText (width / 2) 50 TitleText;
     DrawText 50 y0 (HeaderText CatHeader);
     DrawText 80 y1 (WeightText weight);
     DrawText 400 y1 (AgeText years months);
     DrawText 80 y2 (BcsText bcs);
     DrawText 400 y2 (NeuteredText neutered);
     DrawText 50 y3 (HeaderText DerHeader);
     DrawText 80 y4 (DerText d);
     DrawText 80 y5 (WaterText water)] in
  let '(intake_ops, y6) :=
    match intake with Some ia => intake_block ia y5 | None => ([], y5) end in
  let '(plan_ops, _) :=
    match plan with Some fp => plan_block fp y6 | None => ([], y6) end in
  head ++ intake_ops ++ plan_ops ++
  [DrawText 50 (height - 40) (TimestampText timestamp);
   DrawText (width - 50) (height - 40) FooterText].

Section Renderer.
(** The environment of the renderer: whether [os.path.exists("font.ttf")]
    holds, whether [ImageFont.truetype("font.ttf", _)] succeeds, the
    [datetime.now()] text and Pillow's [image.save(buf, format='PNG')]. *)
Variable font_exists : bool.
Variable font_loadable : bool.
Variable timestamp : string.
Variable png_save : list draw_op -> list byte.

(** [generate_diet_report_image]: [None] when a font load raises
    [IOError], otherwise the PNG bytes of the drawn image. *)
Definition generate_diet_report_image (cat : option cat_info)
    (di : option der_info) (intake : option intake_analysis)
    (plan : option feeding_plan) : option (list byte) :=
  if font_loadable
  then Some (png_save (report_layout timestamp cat di intake plan))
  else None.

(** What the download part of tab 4 ends with. *)
Inductive report_view :=
  | ReportNotReady                      (* no [der_info] yet *)
  | ReportError (e : error_kind)        (* the [st.error] of line 368 *)
  | ReportNoDownload                    (* renderer gave no bytes *)
  | ReportDownload (data : list byte).  (* [st.download_button] *)

(** Tab 4, lines 320-382. *)
Definition report_tab (s : session) : report_view :=
  match ss_der_info s with
  | None => ReportNotReady
  | Some _ =>
      if negb font_exists then ReportError AssetMissing
      else
        match generate_diet_report_image (ss_cat_info s) (ss_der_info s)
                (ss_intake_analysis s) (ss_feeding_plan s) with
        | Some (b :: bs) => ReportDownload (b :: bs)
        | _ => ReportNoDownload
        end
  end.

End Renderer.

End Report.

(** ** Concrete inputs used by the examples and witnesses *)

Module Fixtures.
Import Session Report.

Ltac decide_R :=
  repeat match goal with
  | |- context [Rlt_dec ?a ?b] => destruct (Rlt_dec a b); try lra
  | |- context [Rle_dec ?a ?b] => destruct (Rle_dec a b); try lra
  end.

(** A session in which a DER of [d] has been computed. *)
Definition session_with_der (d : R) : session :=
  {| ss_der := Some d; ss_cat_info := None; ss_der_info := None;
     ss_intake_analysis := None; ss_feeding_plan := None |}.

(** The profile of tab 1 as age in months. *)
Definition age_of (inp : profile_input) : Z :=
  (age_years inp * 12 + age_months_part inp)%Z.

(** A cat of 4 kg, two years old, neutered, score 5. *)
Definition profile_4kg : profile_input :=
  {| weight := 4; age_years := 2; age_months_part := 0; is_neutered := true;
     bcs := 5; is_pregnant := false; is_lactating := false |}.

(** A session holding a DER of 100 with an intake analysis and a plan. *)
Definition session_old : session :=
  {| ss_der := Some 100; ss_cat_info := None; ss_der_info := None;
     ss_intake_analysis := Some {| ia_dry_food_grams := 10; ia_dry_food_kcal := 35;
                                   ia_wet_food_grams := 0; ia_wet_food_kcal := 0;
                                   total_intake := 35; calorie_difference := -65 |};
     ss_feeding_plan := Some {| wet_food_percentage := 0; required_dry_grams := 25;
                                required_wet_grams := 0 |} |}.

(** The food of the spec's feeding example, and a food with no known
    caloric density. *)
Definition food_4000_100 : food_input :=
  {| dry_food_grams := 0; dry_food_kcal_per_1000g := 4000;
     wet_food_grams := 0; wet_food_kcal_per_100g := 100 |}.

Definition food_no_density : food_input :=
  {| dry_food_grams := 0; dry_food_kcal_per_1000g := 0;
     wet_food_grams := 0; wet_food_kcal_per_100g := 0 |}.

(** A stand-in for Pillow's encoder: the PNG signature bytes only. *)
Definition png_stub (ops : list draw_op) : list byte :=
  [x89; x50; x4e; x47].

(** The same cat entered with an age of 0 years and 0 months. *)
Definition profile_age_zero : profile_input :=
  {| weight := 4; age_years := 0; age_months_part := 0; is_neutered := true;
     bcs := 5; is_pregnant := false; is_lactating := false |}.

(** A session after a DER of 120 was computed. *)
Definition session_der_120 : session :=
  {| ss_der := Some 120; ss_cat_info := None;
     ss_der_info := Some {| rer := 100; multiplier := 1.2; der := 120;
                            water_intake := 120 |};
     ss_intake_analysis := None; ss_feeding_plan := None |}.

End Fixtures.

(** ** Theorems *)

Module EnergyFacts.
Import Energy.

Example multiplier_examples :
  get_activity_multiplier 3 false 5 false false = 3.0 /\
  get_activity_multiplier 10 true 5 false false = 2.0 /\
  get_activity_multiplier 24 true 6 false false = 0.8 /\
  get_activity_multiplier 24 true 3 false false = 1.6 /\
  get_activity_multiplier 24 false 6 false false = 1.0 /\
  get_activity_multiplier 100 true 3 false false = 1.2 /\
  get_activity_multiplier 100 false 7 true true = 2.0 /\
  get_activity_multiplier 100 false 7 false true = 3.0.
Proof. repeat split; reflexivity. Qed.

(** Claim C1: for all inputs, the activity multiplier is the spec's
    decision table evaluated in precedence order (pregnant gives 2.0 over
    everything, then lactating 3.0, then the age brackets <4, 4..12,
    13..83, >=84 with the body condition adjustments), and a score of 4 or
    5 always gives the base value of the bracket. *)
Theorem get_activity_multiplier_table :
  forall age_months is_neutered bcs is_pregnant is_lactating,
    get_activity_multiplier age_months is_neutered bcs is_pregnant is_lactating
    = activity_multiplier_table age_months is_neutered bcs is_pregnant is_lactating
  /\ ((bcs = 4 \/ bcs = 5)%Z -> is_pregnant = false -> is_lactating = false ->
      get_activity_multiplier age_months is_neutered bcs is_pregnant is_lactating
      = base_multiplier (life_stage_of age_months) is_neutered).
Proof.
  intros a n b p l.
  unfold get_activity_multiplier, activity_multiplier_table, life_stage_of.
  split.
  - destruct p; [reflexivity|]. destruct l; [reflexivity|].
    destruct (Z.ltb_spec a 4); [reflexivity|].
    destruct (Z.geb_spec a 4); [|lia].
    destruct (Z.leb_spec a 12); [reflexivity|].
    destruct (Z.gtb_spec a 12); [|lia]. simpl.
    destruct (Z.ltb_spec a 84); destruct (Z.leb_spec a 83); try lia; simpl;
      destruct (Z.gtb_spec b 5); destruct (Z.ltb_spec 5 b); try lia;
      destruct n; reflexivity.
  - intros Hb -> ->.
    destruct (Z.ltb_spec a 4); [reflexivity|].
    destruct (Z.geb_spec a 4); [|lia].
    destruct (Z.leb_spec a 12); [reflexivity|].
    destruct (Z.gtb_spec a 12); [|lia]. simpl.
    destruct (Z.gtb_spec b 5); [lia|]. destruct (Z.ltb_spec b 4); [lia|].
    destruct (Z.ltb_spec a 84); destruct (Z.leb_spec a 83); try lia;
      destruct n; reflexivity.
Qed.

Lemma get_activity_multiplier_table_witness :
  get_activity_multiplier 24 true 5 false false
    = activity_multiplier_table 24 true 5 false false /\
  get_activity_multiplier 24 true 5 false false = base_multiplier Adult true.
Proof.
  destruct (get_activity_multiplier_table 24 true 5 false false) as [A B].
  split; [exact A|]. apply B; [right; reflexivity|reflexivity|reflexivity].
Defined.

End EnergyFacts.

Module RerFacts.
Import Energy.

(** Claim C2: for a weight > 0, [calculate_rer] returns
    [70 * weight ^ 0.75] with the real exponent 0.75 (its fourth power is
    [weight ^ 3]); for a weight <= 0 it returns no number. *)
Theorem calculate_rer_spec : forall w : R,
  (w <= 0 /\ calculate_rer w = None) \/
  (0 < w /\ calculate_rer w = Some (70 * Rpower w 0.75) /\
   (Rpower w 0.75) ^ 4 = w ^ 3).
Proof.
  intros w. unfold calculate_rer.
  destruct (Rle_dec w 0) as [Hle|Hgt].
  - left. split; [exact Hle|reflexivity].
  - right. assert (Hw : 0 < w) by lra.
    split; [exact Hw|]. split; [reflexivity|].
    rewrite <- (Rpower_pow 4) by apply exp_pos.
    rewrite Rpower_mult.
    replace (0.75 * INR 4) with (INR 3) by (simpl; lra).
    apply Rpower_pow; exact Hw.
Qed.

End RerFacts.

Module SessionFacts.
Import Energy Session Fixtures.



Lemma intake_verdict_of_cases : forall d,
  (intake_verdict_of d = OverTarget <-> 5 < d) /\
  (intake_verdict_of d = UnderTarget <-> d < -5) /\
  (intake_verdict_of d = OnTarget <-> -5 <= d <= 5).
Proof.
  intros d. unfold intake_verdict_of.
  destruct (Rlt_dec 5 d); [|destruct (Rlt_dec d (-5))];
    (split; [|split]); split; intros Hc; try discriminate; try lra;
    reflexivity.
Qed.

(** Claim C3: for every intake result computed by the analysis, the
    verdict shown is "over target" exactly when the calorie difference is
    > 5, "under target" exactly when it is < -5, "on target" otherwise;
    hence a difference of exactly 5 or -5 is "on target". *)
Theorem analyze_intake_verdict : forall food s s' ia v,
  analyze_intake food s = Updated s' (ia, v) ->
  (v = OverTarget <-> 5 < calorie_difference ia) /\
  (v = UnderTarget <-> calorie_difference ia < -5) /\
  (v = OnTarget <-> -5 <= calorie_difference ia <= 5) /\
  (calorie_difference ia = 5 \/ calorie_difference ia = -5 -> v = OnTarget).
Proof.
  intros food s s' ia v H. unfold analyze_intake in H.
  destruct (ss_der s) as [d|]; [|discriminate].
  injection H as _ Hia Hv. subst ia v. simpl.
  set (x := _ - d).
  destruct (intake_verdict_of_cases x) as (H1 & H2 & H3).
  repeat split; try tauto.
  intros Hx. apply H3. lra.
Qed.

Lemma analyze_intake_verdict_witness :
  exists s' ia v,
    analyze_intake {| dry_food_grams := 0; dry_food_kcal_per_1000g := 0;
                      wet_food_grams := 255; wet_food_kcal_per_100g := 100 |}
                   (session_with_der 250) = Updated s' (ia, v) /\
    ((v = OverTarget <-> 5 < calorie_difference ia) /\
     (v = UnderTarget <-> calorie_difference ia < -5) /\
     (v = OnTarget <-> -5 <= calorie_difference ia <= 5) /\
     (calorie_difference ia = 5 \/ calorie_difference ia = -5 -> v = OnTarget)).
Proof.
  do 3 eexists. split; [reflexivity|].
  eapply (analyze_intake_verdict
            {| dry_food_grams := 0; dry_food_kcal_per_1000g := 0;
               wet_food_grams := 255; wet_food_kcal_per_100g := 100 |}
            (session_with_der 250)).
  reflexivity.
Defined.

(** Claim C5: with a DER [der] stored, the intake analysis stores and
    shows dry kcal [(dry_grams / 1000) * dry_kcal_per_1000g], wet kcal
    [(wet_grams / 100) * wet_kcal_per_100g], their sum as the total and
    [total - der] as the calorie difference. *)
Theorem analyze_intake_amounts : forall food s der,
  ss_der s = Some der ->
  exists s' ia v,
    analyze_intake food s = Updated s' (ia, v) /\
    v = intake_verdict_of (calorie_difference ia) /\
    ss_intake_analysis s' = Some ia /\
    ia_dry_food_kcal ia = (dry_food_grams food / 1000) * dry_food_kcal_per_1000g food /\
    ia_wet_food_kcal ia = (wet_food_grams food / 100) * wet_food_kcal_per_100g food /\
    total_intake ia = ia_dry_food_kcal ia + ia_wet_food_kcal ia /\
    calorie_difference ia = total_intake ia - der.
Proof.
  intros food s der Hd. unfold analyze_intake. rewrite Hd.
  do 3 eexists. split; [reflexivity|].
  split; [reflexivity|].
  repeat split; simpl; lra.
Qed.

Lemma analyze_intake_amounts_witness :
  exists s' ia v,
    analyze_intake {| dry_food_grams := 50; dry_food_kcal_per_1000g := 3500;
                      wet_food_grams := 100; wet_food_kcal_per_100g := 90 |}
                   (session_with_der 250) = Updated s' (ia, v) /\
    v = intake_verdict_of (calorie_difference ia) /\
    ss_intake_analysis s' = Some ia /\
    ia_dry_food_kcal ia = (50 / 1000) * 3500 /\
    ia_wet_food_kcal ia = (100 / 100) * 90 /\
    total_intake ia = ia_dry_food_kcal ia + ia_wet_food_kcal ia /\
    calorie_difference ia = total_intake ia - 250.
Proof.
  apply (analyze_intake_amounts
           {| dry_food_grams := 50; dry_food_kcal_per_1000g := 3500;
              wet_food_grams := 100; wet_food_kcal_per_100g := 90 |}
           (session_with_der 250) 250 eq_refl).
Defined.

(** The worked example of the spec: 175 + 90 = 265 kcal, +15, over target. *)
Example analyze_intake_example :
  exists s' ia,
    analyze_intake {| dry_food_grams := 50; dry_food_kcal_per_1000g := 3500;
                      wet_food_grams := 100; wet_food_kcal_per_100g := 90 |}
                   (session_with_der 250) = Updated s' (ia, OverTarget) /\
    ia_dry_food_kcal ia = 175 /\ ia_wet_food_kcal ia = 90 /\
    total_intake ia = 265 /\ calorie_difference ia = 15.
Proof.
  unfold analyze_intake, intake_verdict_of. simpl.
  decide_R. do 2 eexists. split; [reflexivity|]. simpl. repeat split; lra.
Qed.


Lemma calc_der_succeeds : forall inp s,
  (0 < age_of inp)%Z -> 0 < weight inp ->
  exists s' di, calc_der inp s = Updated s' di.
Proof.
  intros inp s Ha Hw. unfold calc_der, calculate_rer. fold (age_of inp).
  destruct (Z.leb_spec (age_of inp) 0); [lia|].
  destruct (Rle_dec (weight inp) 0); [lra|].
  do 2 eexists. reflexivity.
Qed.

(** Claim C6: every successfully computed energy result has
    [der = rer * multiplier], with [rer] the value of [calculate_rer] and
    [multiplier] the activity multiplier, and a water intake equal to
    [der]; it is the result stored in the session. *)
Theorem calc_der_result : forall inp s s' di,
  calc_der inp s = Updated s' di ->
  der di = rer di * multiplier di /\
  water_intake di = der di /\
  ss_der_info s' = Some di /\ ss_der s' = Some (der di) /\
  Energy.calculate_rer (weight inp) = Some (rer di) /\
  multiplier di = get_activity_multiplier (age_of inp) (is_neutered inp)
                    (bcs inp) (is_pregnant inp) (is_lactating inp).
Proof.
  intros inp s s' di H. unfold calc_der in H. fold (age_of inp) in H.
  destruct (Z.leb_spec (age_of inp) 0); [discriminate|].
  destruct (calculate_rer (weight inp)) as [r|] eqn:E; [|discriminate].
  injection H as <- <-. simpl. repeat split; assumption || reflexivity.
Qed.


Lemma calc_der_result_witness :
  exists s' di,
    calc_der profile_4kg empty_session = Updated s' di /\
    (der di = rer di * multiplier di /\
     water_intake di = der di /\
     ss_der_info s' = Some di /\ ss_der s' = Some (der di) /\
     Energy.calculate_rer 4 = Some (rer di) /\
     multiplier di = get_activity_multiplier 24 true 5 false false).
Proof.
  destruct (calc_der_succeeds profile_4kg empty_session) as (s' & di & H);
    [unfold age_of; simpl; lia | simpl; lra |].
  exists s', di. split; [exact H|].
  exact (calc_der_result profile_4kg empty_session s' di H).
Defined.

(** Claim C7: when no DER is stored, both the intake analysis and the
    feeding plan stop with the precondition message and leave the session
    unchanged: no intake result and no plan is computed or stored. *)
Theorem no_der_short_circuit : forall food p s,
  ss_der s = None ->
  analyze_intake food s = Rejected PreconditionError /\
  generate_plan food p s = Rejected PreconditionError /\
  next_session s (analyze_intake food s) = s /\
  next_session s (generate_plan food p s) = s.
Proof.
  intros food p s H. unfold analyze_intake, generate_plan. rewrite H.
  repeat split.
Qed.

Lemma no_der_short_circuit_witness :
  let food := {| dry_food_grams := 50; dry_food_kcal_per_1000g := 3500;
                 wet_food_grams := 100; wet_food_kcal_per_100g := 90 |} in
  analyze_intake food empty_session = Rejected PreconditionError /\
  generate_plan food 50 empty_session = Rejected PreconditionError /\
  next_session empty_session (analyze_intake food empty_session) = empty_session /\
  next_session empty_session (generate_plan food 50 empty_session) = empty_session.
Proof.
  intros food. apply (no_der_short_circuit food 50 empty_session). reflexivity.
Defined.

(** Claim C8: a successful DER computation stores the new energy result
    and removes any stored intake analysis and feeding plan; a computation
    with weight <= 0 or age <= 0 months stops with [InvalidInput] and
    stores nothing. *)
Theorem calc_der_invalidates : forall inp s,
  (forall s' di, calc_der inp s = Updated s' di ->
     ss_der_info s' = Some di /\ ss_der s' = Some (der di) /\
     ss_intake_analysis s' = None /\ ss_feeding_plan s' = None) /\
  (weight inp <= 0 \/ (age_of inp <= 0)%Z ->
     calc_der inp s = Rejected InvalidInput /\
     next_session s (calc_der inp s) = s).
Proof.
  intros inp s. unfold calc_der. fold (age_of inp). split.
  - intros s' di H.
    destruct (Z.leb_spec (age_of inp) 0); [discriminate|].
    destruct (calculate_rer (weight inp)) as [r|]; [|discriminate].
    injection H as <- <-. repeat split.
  - intros Hbad.
    destruct (Z.leb_spec (age_of inp) 0); [split; reflexivity|].
    destruct Hbad as [Hw|Ha]; [|lia].
    unfold calculate_rer. destruct (Rle_dec (weight inp) 0); [|lra].
    split; reflexivity.
Qed.


Lemma calc_der_invalidates_witness :
  (exists s' di, calc_der profile_4kg session_old = Updated s' di /\
     ss_der_info s' = Some di /\ ss_der s' = Some (der di) /\
     ss_intake_analysis s' = None /\ ss_feeding_plan s' = None) /\
  (calc_der {| weight := 0; age_years := 2; age_months_part := 0;
               is_neutered := true; bcs := 5; is_pregnant := false;
               is_lactating := false |} session_old = Rejected InvalidInput).
Proof.
  split.
  - destruct (calc_der_succeeds profile_4kg session_old) as (s' & di & H);
      [unfold age_of; simpl; lia | simpl; lra |].
    exists s', di. split; [exact H|].
    exact (proj1 (calc_der_invalidates profile_4kg session_old) s' di H).
  - apply (proj2 (calc_der_invalidates _ session_old)). left. simpl. lra.
Defined.

End SessionFacts.

Module PlanFacts.
Import Energy Session Fixtures.


Lemma float_eqb_spec : forall x y, float_eqb x y = true <-> x = y.
Proof.
  intros x y. unfold float_eqb. destruct (Req_EM_T x y); split; congruence.
Qed.

(** Claim C4, as the code has it: with a DER stored, a wet share [p] in
    [0, 100] and densities >= 0, when at least one density is nonzero the
    plan stored and shown has [required_dry_grams =
    (der * ((100 - p) / 100) / dry_kcal_per_1000g) * 1000] for a positive
    dry density and 0 for a zero one, and likewise [required_wet_grams]
    with [der * (p / 100)] and the factor 100; when both densities are 0
    no plan is computed and tab 3 stops with the missing food information
    warning. *)
Theorem generate_plan_amounts : forall food p s der,
  ss_der s = Some der ->
  0 <= dry_food_kcal_per_1000g food -> 0 <= wet_food_kcal_per_100g food ->
  (0 <= p <= 100)%Z ->
  let dk := dry_food_kcal_per_1000g food in
  let wk := wet_food_kcal_per_100g food in
  (dk = 0 /\ wk = 0 /\ generate_plan food p s = Rejected MissingFoodInfo) \/
  ((dk <> 0 \/ wk <> 0) /\
   exists s' fp,
     generate_plan food p s = Updated s' fp /\ ss_feeding_plan s' = Some fp /\
     wet_food_percentage fp = p /\
     (0 < dk -> required_dry_grams fp = (der * (IZR (100 - p) / 100) / dk) * 1000) /\
     (dk = 0 -> required_dry_grams fp = 0) /\
     (0 < wk -> required_wet_grams fp = (der * (IZR p / 100) / wk) * 100) /\
     (wk = 0 -> required_wet_grams fp = 0)).
Proof.
  intros food p s der Hd Hdk Hwk Hp dk wk.
  unfold generate_plan. rewrite Hd. fold dk wk.
  unfold float_eqb.
  destruct (Req_EM_T dk 0) as [E1|N1]; destruct (Req_EM_T wk 0) as [E2|N2];
    cbv beta iota.
  - left. repeat split; assumption.
  - right. split; [right; exact N2|].
    do 2 eexists. split; [reflexivity|]. split; [reflexivity|].
    unfold plan_amounts. cbn [required_dry_grams required_wet_grams wet_food_percentage].
    repeat split; intros; decide_R.
  - right. split; [left; exact N1|].
    do 2 eexists. split; [reflexivity|]. split; [reflexivity|].
    unfold plan_amounts. cbn [required_dry_grams required_wet_grams wet_food_percentage].
    repeat split; intros; decide_R.
  - right. split; [left; exact N1|].
    do 2 eexists. split; [reflexivity|]. split; [reflexivity|].
    unfold plan_amounts. cbn [required_dry_grams required_wet_grams wet_food_percentage].
    repeat split; intros; decide_R.
Qed.

Lemma generate_plan_amounts_witness :
  exists s' fp,
    generate_plan food_4000_100 50 (session_with_der 300) = Updated s' fp /\
    ss_feeding_plan s' = Some fp /\ wet_food_percentage fp = 50%Z /\
    required_dry_grams fp = (300 * (IZR (100 - 50) / 100) / 4000) * 1000 /\
    required_wet_grams fp = (300 * (IZR 50 / 100) / 100) * 100.
Proof.
  destruct (generate_plan_amounts food_4000_100 50 (session_with_der 300) 300
              eq_refl ltac:(simpl; lra) ltac:(simpl; lra) ltac:(lia))
    as [(E & _)|(_ & s' & fp & H1 & H2 & H3 & H4 & _ & H6 & _)];
    cbn [food_4000_100 dry_food_kcal_per_1000g wet_food_kcal_per_100g] in *;
    [lra|].
  exists s', fp. repeat split; [exact H1|exact H2|exact H3|apply H4; lra|apply H6; lra].
Defined.

(** The spec's example: 300 kcal, half wet, 4000 kcal/kg dry and
    100 kcal/100 g wet give 37.5 g dry and 150 g wet. *)
Example generate_plan_example :
  exists s' fp,
    generate_plan food_4000_100 50 (session_with_der 300) = Updated s' fp /\
    required_dry_grams fp = 37.5 /\ required_wet_grams fp = 150.
Proof.
  destruct generate_plan_amounts_witness as (s' & fp & H1 & _ & _ & H4 & H5).
  exists s', fp. split; [exact H1|]. rewrite H4, H5. simpl. split; lra.
Qed.

(** Claim C4 as stated fails: with both caloric densities 0 tab 3 stops
    with the missing food information warning instead of returning a plan
    of 0 grams dry and 0 grams wet. *)
Lemma generate_plan_no_density_counterexample :
  generate_plan food_no_density 50 (session_with_der 300) = Rejected MissingFoodInfo /\
  ~ (exists s' fp,
       generate_plan food_no_density 50 (session_with_der 300) = Updated s' fp /\
       required_dry_grams fp = 0 /\ required_wet_grams fp = 0).
Proof.
  assert (H : generate_plan food_no_density 50 (session_with_der 300)
              = Rejected MissingFoodInfo).
  { unfold generate_plan, food_no_density. cbn [ss_der session_with_der
      dry_food_kcal_per_1000g wet_food_kcal_per_100g].
    assert (E : float_eqb 0 0 = true) by (apply float_eqb_spec; reflexivity).
    rewrite E. reflexivity. }
  split; [exact H|]. intros (s' & fp & H' & _). rewrite H in H'. discriminate.
Qed.

(** Claim C10: when a DER is stored and both densities are positive, the
    plan's quantities, fed back through the intake analysis, give back the
    DER exactly: [(dry / 1000) * dry_kcal_per_1000g + (wet / 100) *
    wet_kcal_per_100g = der], a calorie difference of 0 and the verdict
    "on target". *)
Theorem plan_then_intake_on_target : forall food p s der,
  ss_der s = Some der ->
  0 < dry_food_kcal_per_1000g food -> 0 < wet_food_kcal_per_100g food ->
  exists s1 fp,
    generate_plan food p s = Updated s1 fp /\
    (required_dry_grams fp / 1000) * dry_food_kcal_per_1000g food
      + (required_wet_grams fp / 100) * wet_food_kcal_per_100g food = der /\
    exists s2 ia v,
      analyze_intake {| dry_food_grams := required_dry_grams fp;
                        dry_food_kcal_per_1000g := dry_food_kcal_per_1000g food;
                        wet_food_grams := required_wet_grams fp;
                        wet_food_kcal_per_100g := wet_food_kcal_per_100g food |} s1
        = Updated s2 (ia, v) /\
      total_intake ia = der /\ calorie_difference ia = 0 /\ v = OnTarget.
Proof.
  intros food p s der Hd Hdk Hwk.
  set (dk := dry_food_kcal_per_1000g food) in *.
  set (wk := wet_food_kcal_per_100g food) in *.
  assert (Hsum : (required_dry_grams (plan_amounts der p dk wk) / 1000) * dk
                 + (required_wet_grams (plan_amounts der p dk wk) / 100) * wk = der).
  { unfold plan_amounts.
    cbn [required_dry_grams required_wet_grams].
    decide_R. rewrite minus_IZR. field. lra. }
  unfold generate_plan. rewrite Hd. fold dk wk. unfold float_eqb.
  destruct (Req_EM_T dk 0) as [E1|_]; [lra|]. cbv beta iota.
  do 2 eexists. split; [reflexivity|]. split; [exact Hsum|].
  unfold analyze_intake. cbn [ss_der].
  do 3 eexists. split; [reflexivity|].
  cbn [total_intake calorie_difference dry_food_grams wet_food_grams
       dry_food_kcal_per_1000g wet_food_kcal_per_100g].
  rewrite Hsum, Rminus_diag.
  unfold intake_verdict_of. repeat split; decide_R; reflexivity.
Qed.

Lemma plan_then_intake_on_target_witness :
  exists s1 fp,
    generate_plan food_4000_100 50 (session_with_der 300) = Updated s1 fp /\
    (required_dry_grams fp / 1000) * 4000 + (required_wet_grams fp / 100) * 100 = 300 /\
    exists s2 ia v,
      analyze_intake {| dry_food_grams := required_dry_grams fp;
                        dry_food_kcal_per_1000g := 4000;
                        wet_food_grams := required_wet_grams fp;
                        wet_food_kcal_per_100g := 100 |} s1
        = Updated s2 (ia, v) /\
      total_intake ia = 300 /\ calorie_difference ia = 0 /\ v = OnTarget.
Proof.
  apply (plan_then_intake_on_target food_4000_100 50 (session_with_der 300) 300
           eq_refl); unfold food_4000_100; simpl; lra.
Defined.

End PlanFacts.

Module ReportFacts.
Import Session Report Fixtures.

(** Claim C9: when the font cannot be loaded the renderer returns no
    bytes at all; when it loads, it returns the PNG encoding of the drawn
    report; the report tab checks that the font file exists before calling
    the renderer and, when it is absent, shows the [AssetMissing] error and
    offers no download; a download is offered only with the font present
    and loadable, and it holds the PNG encoding of the report. *)
Theorem report_asset_handling :
  forall (font_exists font_loadable : bool) (ts : string)
         (png : list draw_op -> list byte) cat di ia fp s,
  (font_loadable = false ->
     generate_diet_report_image font_loadable ts png cat di ia fp = None) /\
  (font_loadable = true ->
     generate_diet_report_image font_loadable ts png cat di ia fp
     = Some (png (report_layout ts cat di ia fp))) /\
  (font_exists = false -> ss_der_info s <> None ->
     report_tab font_exists font_loadable ts png s = ReportError AssetMissing) /\
  (forall data, report_tab font_exists font_loadable ts png s = ReportDownload data ->
     font_exists = true /\ font_loadable = true /\
     data = png (report_layout ts (ss_cat_info s) (ss_der_info s)
                   (ss_intake_analysis s) (ss_feeding_plan s))).
Proof.
  intros fe fl ts png cat di ia fp s.
  unfold report_tab, generate_diet_report_image.
  split; [intros ->; reflexivity|].
  split; [intros ->; reflexivity|].
  split.
  - intros -> Hdi. destruct (ss_der_info s); [reflexivity|congruence].
  - intros data H. destruct (ss_der_info s); [|discriminate].
    destruct fe; [|discriminate]. destruct fl; [|discriminate].
    cbv beta iota in H.
    destruct (png _) as [|b bs] eqn:E; [discriminate|].
    injection H as <-. auto.
Qed.


Lemma report_asset_handling_witness :
  generate_diet_report_image false "" png_stub None None None None = None /\
  generate_diet_report_image true "" png_stub None None None None
    = Some (png_stub (report_layout "" None None None None)) /\
  report_tab false true "" png_stub session_der_120 = ReportError AssetMissing.
Proof.
  destruct (report_asset_handling false true "" png_stub None None None None
              session_der_120) as (_ & B & C & _).
  destruct (report_asset_handling false false "" png_stub None None None None
              session_der_120) as (A & _).
  split; [apply A; reflexivity|].
  split; [apply B; reflexivity|].
  apply C; [reflexivity|discriminate].
Defined.

(** Omitted sections reserve no space: without an intake analysis the
    plan header is drawn at y = 460, with one at y = 630. *)
Example report_layout_offsets :
  let fp := {| wet_food_percentage := 50; required_dry_grams := 37.5;
               required_wet_grams := 150 |} in
  let ia := {| ia_dry_food_grams := 50; ia_dry_food_kcal := 175;
               ia_wet_food_grams := 100; ia_wet_food_kcal := 90;
               total_intake := 265; calorie_difference := 15 |} in
  In (DrawText 50 460 (HeaderText PlanHeader)) (report_layout "" None None None (Some fp)) /\
  In (DrawText 50 630 (HeaderText PlanHeader)) (report_layout "" None None (Some ia) (Some fp)).
Proof. simpl. split; tauto. Qed.

End ReportFacts.

(** ** Further properties of the code *)

Module ExtraFacts.
Import Energy Session Report Fixtures.

(** Case analysis on every integer comparison and flag of a goal. *)
Ltac split_Z_ifs :=
  repeat match goal with
  | |- context [(?x <? ?y)%Z] => destruct (Z.ltb_spec x y)
  | |- context [(?x <=? ?y)%Z] => destruct (Z.leb_spec x y)
  | |- context [(?x >? ?y)%Z] => destruct (Z.gtb_spec x y)
  | |- context [(?x >=? ?y)%Z] => destruct (Z.geb_spec x y)
  end; cbn [andb]; try lia.

Lemma get_activity_multiplier_range : forall a n b p l,
  0.8 <= get_activity_multiplier a n b p l <= 3.0.
Proof.
  intros a n b p l. unfold get_activity_multiplier.
  destruct p, l, n; split_Z_ifs; lra.
Qed.

(** The activity multiplier always lies between 0.8 and 3.0. *)
Theorem get_activity_multiplier_bounds : forall a n b p l,
  0.8 <= get_activity_multiplier a n b p l <= 3.0.
Proof. exact get_activity_multiplier_range. Qed.

(** A higher body condition score never gives a higher multiplier. *)
Theorem get_activity_multiplier_antitone_bcs : forall a n b1 b2 p l,
  (b1 <= b2)%Z ->
  get_activity_multiplier a n b2 p l <= get_activity_multiplier a n b1 p l.
Proof.
  intros a n b1 b2 p l Hb. unfold get_activity_multiplier.
  destruct p, l, n; split_Z_ifs; lra.
Qed.

Lemma get_activity_multiplier_antitone_bcs_witness :
  (4 <= 6)%Z /\
  get_activity_multiplier 24 true 6 false false
    <= get_activity_multiplier 24 true 4 false false.
Proof.
  split; [lia|]. apply get_activity_multiplier_antitone_bcs. lia.
Defined.

(** Being neutered never gives a higher multiplier than being intact. *)
Theorem get_activity_multiplier_neutered_le : forall a b p l,
  get_activity_multiplier a true b p l <= get_activity_multiplier a false b p l.
Proof.
  intros a b p l. unfold get_activity_multiplier.
  destruct p, l; split_Z_ifs; lra.
Qed.

Lemma calculate_rer_pos : forall w r, calculate_rer w = Some r -> 0 < w /\ 0 < r.
Proof.
  intros w r H. unfold calculate_rer in H.
  destruct (Rle_dec w 0); [discriminate|].
  injection H as <-. split; [lra|].
  apply Rmult_lt_0_compat; [lra|apply exp_pos].
Qed.



(** A computed energy result has a positive RER, and its DER lies between
    0.8 and 3.0 times the RER, so it is positive. *)
Theorem calc_der_der_bounds : forall inp s s' di,
  calc_der inp s = Updated s' di ->
  0 < rer di /\ 0.8 * rer di <= der di <= 3.0 * rer di /\ 0 < der di.
Proof.
  intros inp s s' di H. unfold calc_der in H.
  destruct (_ <=? 0)%Z; [discriminate|].
  destruct (calculate_rer (weight inp)) as [r|] eqn:E; [|discriminate].
  injection H as _ <-. cbn [rer der].
  destruct (calculate_rer_pos _ _ E) as [_ Hr].
  match goal with |- context [get_activity_multiplier ?a ?n ?b ?p ?l] =>
    destruct (get_activity_multiplier_range a n b p l) end.
  split; [exact Hr|]. split; [split|]; nra.
Qed.

Lemma calc_der_der_bounds_witness :
  exists s' di, calc_der profile_4kg empty_session = Updated s' di /\
    (0 < rer di /\ 0.8 * rer di <= der di <= 3.0 * rer di /\ 0 < der di).
Proof.
  destruct (SessionFacts.calc_der_succeeds profile_4kg empty_session) as (s' & di & H);
    [unfold age_of; simpl; lia | simpl; lra |].
  exists s', di. split; [exact H|]. exact (calc_der_der_bounds _ _ _ _ H).
Defined.

(** With the widget ranges of tab 1 (years and months >= 0) and a positive
    weight, the DER computation is rejected exactly when both the years
    and the months are 0; otherwise it succeeds. *)
Theorem calc_der_rejects_only_age_zero : forall inp s,
  0 < weight inp -> (0 <= age_years inp)%Z -> (0 <= age_months_part inp)%Z ->
  (calc_der inp s = Rejected InvalidInput <->
   age_years inp = 0%Z /\ age_months_part inp = 0%Z) /\
  ((age_years inp <> 0 \/ age_months_part inp <> 0)%Z ->
   exists s' di, calc_der inp s = Updated s' di).
Proof.
  intros inp s Hw Hy Hm. split.
  - split.
    + intros H. destruct (Z.eq_dec (age_years inp) 0) as [Ey|Ny];
        destruct (Z.eq_dec (age_months_part inp) 0) as [Em|Nm]; [tauto| | |];
      (destruct (SessionFacts.calc_der_succeeds inp s) as (s' & di & E);
        [unfold age_of; lia | exact Hw | congruence]).
    + intros [Ey Em]. unfold calc_der. rewrite Ey, Em. reflexivity.
  - intros Hne. apply SessionFacts.calc_der_succeeds; [unfold age_of; lia|exact Hw].
Qed.

Lemma calc_der_rejects_only_age_zero_witness :
  calc_der profile_age_zero empty_session = Rejected InvalidInput /\
  (exists s' di, calc_der profile_4kg empty_session = Updated s' di).
Proof.
  split.
  - apply (proj2 (proj1 (calc_der_rejects_only_age_zero profile_age_zero empty_session
             ltac:(simpl; lra) ltac:(simpl; lia) ltac:(simpl; lia)))).
    split; reflexivity.
  - apply (proj2 (calc_der_rejects_only_age_zero profile_4kg empty_session
             ltac:(simpl; lra) ltac:(simpl; lia) ltac:(simpl; lia))).
    left. simpl. lia.
Defined.

(** The intake analysis writes only the intake entry: the DER, the cat
    data, the energy result and any feeding plan are left as they were. *)
Theorem analyze_intake_frame : forall food s s' r,
  analyze_intake food s = Updated s' r ->
  ss_der s' = ss_der s /\ ss_cat_info s' = ss_cat_info s /\
  ss_der_info s' = ss_der_info s /\ ss_feeding_plan s' = ss_feeding_plan s.
Proof.
  intros food s s' r H. unfold analyze_intake in H.
  destruct (ss_der s); [|discriminate].
  injection H as <- _. repeat split.
Qed.

Lemma analyze_intake_frame_witness :
  exists s' r,
    analyze_intake food_4000_100 session_old = Updated s' r /\
    (ss_der s' = ss_der session_old /\ ss_cat_info s' = ss_cat_info session_old /\
     ss_der_info s' = ss_der_info session_old /\
     ss_feeding_plan s' = ss_feeding_plan session_old).
Proof.
  do 2 eexists. split; [reflexivity|].
  eapply (analyze_intake_frame food_4000_100 session_old). reflexivity.
Defined.

(** With non-negative quantities and densities the analysed calories are
    non-negative, and the calorie difference is at least [-der]. *)
Theorem analyze_intake_nonneg : forall food s der s' ia v,
  ss_der s = Some der ->
  analyze_intake food s = Updated s' (ia, v) ->
  0 <= dry_food_grams food -> 0 <= dry_food_kcal_per_1000g food ->
  0 <= wet_food_grams food -> 0 <= wet_food_kcal_per_100g food ->
  0 <= ia_dry_food_kcal ia /\ 0 <= ia_wet_food_kcal ia /\
  0 <= total_intake ia /\ - der <= calorie_difference ia.
Proof.
  intros food s der s' ia v Hd H H1 H2 H3 H4. unfold analyze_intake in H.
  rewrite Hd in H. injection H as _ <- _. cbn.
  assert (0 <= dry_food_grams food / 1000 * dry_food_kcal_per_1000g food)
    by (apply Rmult_le_pos; lra).
  assert (0 <= wet_food_grams food / 100 * wet_food_kcal_per_100g food)
    by (apply Rmult_le_pos; lra).
  repeat split; lra.
Qed.

Lemma analyze_intake_nonneg_witness :
  exists s' ia v,
    analyze_intake food_4000_100 (session_with_der 300) = Updated s' (ia, v) /\
    (0 <= ia_dry_food_kcal ia /\ 0 <= ia_wet_food_kcal ia /\
     0 <= total_intake ia /\ - 300 <= calorie_difference ia).
Proof.
  do 3 eexists. split; [reflexivity|].
  eapply (analyze_intake_nonneg food_4000_100 (session_with_der 300) 300);
    [reflexivity|reflexivity|..]; simpl; lra.
Defined.

(** Generating a plan writes only the plan entry, and the plan records the
    wet share it was computed for. *)
Theorem generate_plan_frame : forall food p s s' fp,
  generate_plan food p s = Updated s' fp ->
  ss_der s' = ss_der s /\ ss_cat_info s' = ss_cat_info s /\
  ss_der_info s' = ss_der_info s /\
  ss_intake_analysis s' = ss_intake_analysis s /\
  ss_feeding_plan s' = Some fp /\ wet_food_percentage fp = p.
Proof.
  intros food p s s' fp H. unfold generate_plan in H.
  destruct (ss_der s); [|discriminate].
  destruct (_ && _)%bool; [discriminate|].
  injection H as <- <-. repeat split.
Qed.

Lemma generate_plan_frame_witness :
  exists s' fp,
    generate_plan food_4000_100 50 session_old = Updated s' fp /\
    (ss_der s' = ss_der session_old /\ ss_cat_info s' = ss_cat_info session_old /\
     ss_der_info s' = ss_der_info session_old /\
     ss_intake_analysis s' = ss_intake_analysis session_old /\
     ss_feeding_plan s' = Some fp /\ wet_food_percentage fp = 50%Z).
Proof.
  assert (H : exists s' fp, generate_plan food_4000_100 50 session_old = Updated s' fp).
  { unfold generate_plan, food_4000_100, float_eqb. cbn [ss_der session_old
      dry_food_kcal_per_1000g wet_food_kcal_per_100g].
    destruct (Req_EM_T 4000 0); [lra|]. do 2 eexists. reflexivity. }
  destruct H as (s' & fp & H). exists s', fp. split; [exact H|].
  exact (generate_plan_frame _ _ _ _ _ H).
Defined.

(** With a non-negative DER, a wet share in [0, 100] and non-negative
    densities, the planned grams are non-negative; a 100 % wet share plans
    no dry food and a 0 % wet share plans no wet food. *)
Theorem generate_plan_nonneg : forall food p s der s' fp,
  ss_der s = Some der ->
  generate_plan food p s = Updated s' fp ->
  0 <= der -> (0 <= p <= 100)%Z ->
  0 <= dry_food_kcal_per_1000g food -> 0 <= wet_food_kcal_per_100g food ->
  0 <= required_dry_grams fp /\ 0 <= required_wet_grams fp /\
  (p = 100%Z -> required_dry_grams fp = 0) /\
  (p = 0%Z -> required_wet_grams fp = 0).
Proof.
  intros food p s der s' fp Hd H Hder Hp Hdk Hwk. unfold generate_plan in H.
  rewrite Hd in H. destruct (_ && _)%bool; [discriminate|].
  injection H as _ <-. unfold plan_amounts.
  cbn [required_dry_grams required_wet_grams].
  assert (Hp1 : 0 <= IZR p <= 100) by (split; apply IZR_le; lia).
  assert (Hp2 : 0 <= IZR (100 - p) <= 100) by (split; apply IZR_le; lia).
  set (dk := dry_food_kcal_per_1000g food). set (wk := wet_food_kcal_per_100g food).
  repeat split.
  - destruct (Rlt_dec 0 dk); [|lra]. unfold Rdiv.
    repeat apply Rmult_le_pos; try lra; apply Rlt_le, Rinv_0_lt_compat; lra.
  - destruct (Rlt_dec 0 wk); [|lra]. unfold Rdiv.
    repeat apply Rmult_le_pos; try lra; apply Rlt_le, Rinv_0_lt_compat; lra.
  - intros ->. destruct (Rlt_dec 0 dk); [|reflexivity].
    replace (100 - 100)%Z with 0%Z by reflexivity. unfold Rdiv. ring.
  - intros ->. destruct (Rlt_dec 0 wk); [|reflexivity]. unfold Rdiv. ring.
Qed.

Lemma generate_plan_nonneg_witness :
  exists s' fp,
    generate_plan food_4000_100 100 (session_with_der 300) = Updated s' fp /\
    (0 <= required_dry_grams fp /\ 0 <= required_wet_grams fp /\
     (100%Z = 100%Z -> required_dry_grams fp = 0) /\
     (100%Z = 0%Z -> required_wet_grams fp = 0)).
Proof.
  assert (H : exists s' fp,
             generate_plan food_4000_100 100 (session_with_der 300) = Updated s' fp).
  { unfold generate_plan, food_4000_100, float_eqb. cbn [ss_der session_with_der
      dry_food_kcal_per_1000g wet_food_kcal_per_100g].
    destruct (Req_EM_T 4000 0); [lra|]. do 2 eexists. reflexivity. }
  destruct H as (s' & fp & H). exists s', fp. split; [exact H|].
  apply (generate_plan_nonneg food_4000_100 100 (session_with_der 300) 300 s' fp
           eq_refl H); simpl; lra || lia.
Defined.

(** Every text of the report is drawn inside the 800 x 800 image. *)
Theorem report_layout_in_canvas : forall ts cat di ia fp op,
  In op (report_layout ts cat di ia fp) ->
  (0 <= op_x op <= width)%Z /\ (0 <= op_y op <= height)%Z.
Proof.
  intros ts cat di ia fp op H. unfold report_layout in H.
  destruct ia, fp; cbn in H;
    repeat (destruct H as [<-|H]; [cbn; unfold width, height; lia|]);
    contradiction.
Qed.

Lemma report_layout_in_canvas_witness :
  (0 <= op_x (DrawText 50 460 (HeaderText PlanHeader)) <= width)%Z /\
  (0 <= op_y (DrawText 50 460 (HeaderText PlanHeader)) <= height)%Z.
Proof.
  apply (report_layout_in_canvas "" None None None
           (Some {| wet_food_percentage := 50; required_dry_grams := 37.5;
                    required_wet_grams := 150 |})).
  cbn. tauto.
Defined.

(** The intake section is drawn exactly when an intake analysis is
    stored, with its header at y = 460; the plan section exactly when a
    plan is stored, with its header at y = 460, or at 630 below an intake
    section: omitted sections reserve no space. *)
Theorem report_layout_sections : forall ts cat di ia fp y,
  (In (DrawText 50 y (HeaderText IntakeHeader)) (report_layout ts cat di ia fp)
   <-> ia <> None /\ y = 460%Z) /\
  (In (DrawText 50 y (HeaderText PlanHeader)) (report_layout ts cat di ia fp)
   <-> fp <> None /\ y = (if ia then 630 else 460)%Z).
Proof.
  intros ts cat di ia fp y. unfold report_layout.
  destruct ia, fp; cbn; split; split;
    try (intros [Hn ->]; try congruence; tauto);
    intros H; repeat (destruct H as [H|H]; [injection H; intros; subst;
                                             try discriminate; split; congruence|]);
    contradiction.
Qed.

(** After a successful DER computation, the report drawn from the new
    session shows the new DER both as the calorie and as the water line,
    and has neither an intake section nor a plan section. *)
Theorem calc_der_then_report : forall inp s s' di ts,
  calc_der inp s = Updated s' di ->
  let ops := report_layout ts (ss_cat_info s') (ss_der_info s')
               (ss_intake_analysis s') (ss_feeding_plan s') in
  In (DrawText 80 340 (DerText (der di))) ops /\
  In (DrawText 80 380 (WaterText (der di))) ops /\
  (forall op, In op ops ->
     op_text op <> HeaderText IntakeHeader /\ op_text op <> HeaderText PlanHeader).
Proof.
  intros inp s s' di ts H. unfold calc_der in H.
  destruct (_ <=? 0)%Z; [discriminate|].
  destruct (calculate_rer (weight inp)); [|discriminate].
  injection H as <- <-. cbn. split; [tauto|]. split; [tauto|].
  intros op Hop.
  repeat (destruct Hop as [<-|Hop]; [cbn; split; discriminate|]).
  contradiction.
Qed.

Lemma calc_der_then_report_witness :
  exists s' di, calc_der profile_4kg session_old = Updated s' di /\
    (let ops := report_layout "" (ss_cat_info s') (ss_der_info s')
                  (ss_intake_analysis s') (ss_feeding_plan s') in
     In (DrawText 80 340 (DerText (der di))) ops /\
     In (DrawText 80 380 (WaterText (der di))) ops /\
     (forall op, In op ops ->
        op_text op <> HeaderText IntakeHeader /\ op_text op <> HeaderText PlanHeader)).
Proof.
  destruct (SessionFacts.calc_der_succeeds profile_4kg session_old) as (s' & di & H);
    [unfold age_of; simpl; lia | simpl; lra |].
  exists s', di. split; [exact H|]. exact (calc_der_then_report _ _ _ _ "" H).
Defined.

(** After a successful DER computation the intake analysis always runs,
    measures the difference against the new DER, and keeps the energy
    result; no feeding plan is stored at that point. *)
Theorem calc_der_then_analyze : forall inp s s' di food,
  calc_der inp s = Updated s' di ->
  exists s'' ia v,
    analyze_intake food s' = Updated s'' (ia, v) /\
    calorie_difference ia = total_intake ia - der di /\
    ss_der_info s'' = Some di /\ ss_feeding_plan s'' = None.
Proof.
  intros inp s s' di food H. unfold calc_der in H.
  destruct (_ <=? 0)%Z; [discriminate|].
  destruct (calculate_rer (weight inp)); [|discriminate].
  injection H as <- <-. unfold analyze_intake. cbn [ss_der].
  do 3 eexists. split; [reflexivity|]. cbn. repeat split.
Qed.

Lemma calc_der_then_analyze_witness :
  exists s' di, calc_der profile_4kg session_old = Updated s' di /\
  exists s'' ia v,
    analyze_intake food_4000_100 s' = Updated s'' (ia, v) /\
    calorie_difference ia = total_intake ia - der di /\
    ss_der_info s'' = Some di /\ ss_feeding_plan s'' = None.
Proof.
  destruct (SessionFacts.calc_der_succeeds profile_4kg session_old) as (s' & di & H);
    [unfold age_of; simpl; lia | simpl; lra |].
  exists s', di. split; [exact H|]. exact (calc_der_then_analyze _ _ _ _ _ H).
Defined.

End ExtraFacts.
